(** * mumulbot / redhat.py: retrieval cache, inference client and query endpoint

    A shallow embedding of [src/redhat.py].  The module is a thin
    orchestration layer over third-party libraries (faiss, pickle, langchain,
    httpx, FastAPI).  What the module itself decides -- paths, file layout,
    the order of the pickled records, the cache-hit test, the prompt, the
    mapping of failures to HTTP errors -- is modelled concretely.  What the
    libraries compute is kept abstract behind the [Libraries] interface: every
    theorem holds for all behaviours of the libraries, except where a
    hypothesis states the guarantee that is used. *)

From Stdlib Require Import ZArith Strings.Byte Ascii.
From stdpp Require Import gmap strings list pretty.

Local Open Scope Z_scope.

Abbreviation bytes := (list byte).

(** ** Python exceptions and results *)

(** An HTTP response as httpx hands it to the caller: [response.status_code]
    and [response.text]. *)
Record Response := mkResponse { status_code : Z; text : string }.

(** The exceptions the module distinguishes.  [Exception cls msg] is an
    instance of any other subclass of Python's [Exception] whose [str()] is
    [msg].  What [except Exception] does not catch (interrupts, task
    cancellation) is outside the model. *)
Inductive PyExc :=
| HTTPException (status : Z) (detail : string)
| HTTPStatusError (message : string) (response : Response)
| Exception (cls : string) (message : string).

(** [str(e)].  Starlette prints an [HTTPException] as "status: detail". *)
Definition str (e : PyExc) : string :=
  match e with
  | HTTPException s d => pretty s +:+ ": " +:+ d
  | HTTPStatusError m _ => m
  | Exception _ m => m
  end.

Inductive result (A : Type) :=
| Ok (a : A)
| Raise (e : PyExc).
Arguments Ok {A} a.
Arguments Raise {A} e.

Definition rbind {A B} (r : result A) (k : A -> result B) : result B :=
  match r with
  | Ok a => k a
  | Raise e => Raise e
  end.

#[global] Instance result_ret : MRet result := @Ok.
#[global] Instance result_bind : MBind result := λ A B k r, rbind r k.

(** ** Python text *)

Definition LF : string := String "010"%char EmptyString.

(** [sep.join(xs)] *)
Fixpoint str_join (sep : string) (xs : list string) : string :=
  match xs with
  | [] => ""
  | x :: rest =>
      match rest with
      | [] => x
      | _ => x +:+ sep +:+ str_join sep rest
      end
  end.

Fixpoint kw_lookup (name : string) (kwargs : list (string * string)) : option string :=
  match kwargs with
  | [] => None
  | (k, v) :: rest => if String.eqb k name then Some v else kw_lookup name rest
  end.

(** [template.format(name=value, ...)] for templates whose replacement fields are
    plain keyword names ([{name}], no conversion, format spec, attribute or
    index), with the escapes [{{] and [}}].  [field] is [Some n] while the
    scan is inside a replacement field whose name so far is [n].  The
    substituted values are copied, never scanned again. *)
Fixpoint format_scan (kwargs : list (string * string)) (field : option string)
    (s : string) : result string :=
  match s with
  | EmptyString =>
      match field with
      | None => Ok ""
      | Some _ => Raise (Exception "ValueError" "expected '}' before end of string")
      end
  | String c s' =>
      match field with
      | Some name =>
          if Ascii.eqb c "}" then
            match kw_lookup name kwargs with
            | None => Raise (Exception "KeyError" ("'" +:+ name +:+ "'"))
            | Some v => r ← format_scan kwargs None s'; Ok (v +:+ r)
            end
          else format_scan kwargs (Some (name +:+ String c "")) s'
      | None =>
          if Ascii.eqb c "{" then
            match s' with
            | String "{" s'' => r ← format_scan kwargs None s''; Ok (String "{" r)
            | _ => format_scan kwargs (Some "") s'
            end
          else if Ascii.eqb c "}" then
            match s' with
            | String "}" s'' => r ← format_scan kwargs None s''; Ok (String "}" r)
            | _ => Raise (Exception "ValueError" "Single '}' encountered in format string")
            end
          else r ← format_scan kwargs None s'; Ok (String c r)
      end
  end.

Definition str_format (template : string) (kwargs : list (string * string)) : result string :=
  format_scan kwargs None template.

(** ** os.path (posixpath) *)

(** [os.path.basename(p)]: what follows the last slash. *)
Fixpoint basename_from (acc s : string) : string :=
  match s with
  | EmptyString => acc
  | String c s' =>
      if Ascii.eqb c "/" then basename_from "" s'
      else basename_from (acc +:+ String c "") s'
  end.

Definition os_path_basename (p : string) : string := basename_from "" p.

Fixpoint ends_with_slash (s : string) : bool :=
  match s with
  | EmptyString => false
  | String c EmptyString => Ascii.eqb c "/"
  | String _ s' => ends_with_slash s'
  end.

(** [os.path.join(a, b)] *)
Definition os_path_join (a b : string) : string :=
  match b with
  | String "/" _ => b
  | _ => if String.eqb a "" || ends_with_slash a then a +:+ b else a +:+ "/" +:+ b
  end.

(** [len(s)] of a Python [str]: the number of code points.  A [string] here
    holds the UTF-8 bytes of the text, so the code points are the bytes that
    are not continuation bytes (10xxxxxx). *)
Definition is_continuation (c : ascii) : bool :=
  match c with
  | Ascii _ _ _ _ _ _ false true => true
  | _ => false
  end.

Fixpoint len (s : string) : nat :=
  match s with
  | EmptyString => 0%nat
  | String c s' => if is_continuation c then len s' else S (len s')
  end.

(** ** Values of the libraries that the module builds itself *)

Record Document := mkDocument {
  page_content : string;
  metadata : list (string * string)
}.

Record LocalFileStore := mkLocalFileStore { root_path : string }.

(** The two embedding providers the module constructs. *)
Inductive Embeddings :=
| HuggingFaceEmbeddings (model_name : string) (device : string) (normalize_embeddings : bool)
| CacheBackedEmbeddings (underlying_embeddings : Embeddings)
    (document_embedding_store : LocalFileStore).

(** [CacheBackedEmbeddings.from_bytes_store(underlying, store)] *)
Definition from_bytes_store (underlying : Embeddings) (store : LocalFileStore) : Embeddings :=
  CacheBackedEmbeddings underlying store.

Record RecursiveCharacterTextSplitter := mkSplitter {
  chunk_size : nat;
  chunk_overlap : nat;
  separators : list string;
  length_function : string → nat
}.

(** [httpx.Timeout(120.0, read=120.0)], in seconds. *)
Record Timeout := mkTimeout { connect : Z; read : Z; write : Z; pool : Z }.

(** The JSON body posted to the inference service. *)
Record Payload := mkPayload { model : string; prompt : string; stream : bool }.

(** What the module asks of the outside world, in the order it asks. *)
Inductive Event :=
| EvMakedirs (path : string)
| EvLoadAndSplit (file_path : string) (text_splitter : RecursiveCharacterTextSplitter)
| EvFromDocuments (docs : list Document) (embedding : Embeddings)
| EvPost (url : string) (json : Payload) (headers : list (string * string)) (t : Timeout).

Definition is_post (ev : Event) : bool :=
  match ev with EvPost _ _ _ _ => true | _ => false end.

Definition is_ingestion (ev : Event) : bool :=
  match ev with EvLoadAndSplit _ _ => true | _ => false end.

(** Modelled from the spec: [schemas.QueryModel], the request body
    [{inputs: string}] of the endpoint; the module [schemas] is not part of
    the sources. *)
Record QueryModel := mkQueryModel { inputs : string }.

(** ** The third-party libraries *)

(** The operations of faiss, pickle, langchain, httpx and FastAPI that the
    module calls.  Each may raise.  Nothing is assumed of them here. *)
Class Libraries := {
  (** a faiss index, an embedding vector, a picklable Python object, a
      decoded JSON value *)
  Index : Type;
  Vec : Type;
  PyObj : Type;
  Json : Type;
  (** [faiss.write_index] / [faiss.read_index]: the bytes of the index file *)
  faiss_serialize : Index → bytes;
  faiss_deserialize : bytes → result Index;
  (** [pickle.dump] appends one pickle to the stream; [pickle.load] reads
      the next pickle and leaves the rest of the stream *)
  pickle_dumps : PyObj → bytes;
  pickle_loads : bytes → result (PyObj * bytes);
  (** an [Embeddings] object, or [None], as a Python object *)
  obj_of_embeddings : option Embeddings → PyObj;
  (** [HuggingFaceEmbeddings.embed_query] *)
  hf_embed_query : string → string → bool → string → result Vec;
  (** [FAISS.similarity_search_by_vector]: nearest neighbours in the index,
      looked up through the id-mapping in the docstore *)
  similarity_search_by_vector : Index → PyObj → PyObj → Vec → result (list Document);
  (** [UnstructuredFileLoader(path).load_and_split(text_splitter)] *)
  load_and_split :
    gmap string bytes → string → RecursiveCharacterTextSplitter → result (list Document);
  (** [FAISS.from_documents]: embeds the chunks (the cache-backed provider
      writes to its byte store) and builds index, id-mapping and docstore *)
  from_documents :
    gmap string bytes → list Document → Embeddings →
    result (Index * PyObj * PyObj) * gmap string bytes;
  (** [client.post(url, json=, headers=)]; the answer may depend on what was
      asked before *)
  http_post :
    list Event → string → Payload → list (string * string) → Timeout → result Response;
  (** the message of the [HTTPStatusError] of [raise_for_status] *)
  status_error_message : Response → string;
  (** [response.json()] and [result[key]] *)
  response_json : Response → result Json;
  json_getitem : Json → string → result Json;
  (** the body rendered by [JSONResponse(content=)] *)
  json_render : Json → result string
}.

Section Redhat.
Context `{Libraries}.

(** [embeddings.embed_query(text)]: [CacheBackedEmbeddings] caches document
    embeddings only and hands queries to the provider it wraps. *)
Fixpoint embed_query (e : Embeddings) (text : string) : result Vec :=
  match e with
  | HuggingFaceEmbeddings m d n => hf_embed_query m d n text
  | CacheBackedEmbeddings u _ => embed_query u text
  end.

(** What a [FAISS] store holds as [embedding_function]: an [Embeddings]
    object (as [FAISS.from_documents] stores it) or the bound method
    [embeddings.embed_query] (as [load_faiss_index] passes it). *)
Inductive EmbeddingFunction :=
| EmbeddingsObject (e : Embeddings)
| EmbedQueryMethod (e : Embeddings).

(** The langchain vector store [FAISS(index=, docstore=,
    index_to_docstore_id=, embedding_function=)].  The side tables are
    whatever Python objects were passed in. *)
Record FAISS := mkFAISS {
  index : Index;
  docstore : PyObj;
  index_to_docstore_id : PyObj;
  embedding_function : EmbeddingFunction
}.

(** The property [vectorstore.embeddings]: the [Embeddings] object if the
    store holds one, else [None]. *)
Definition embeddings (vectorstore : FAISS) : PyObj :=
  match embedding_function vectorstore with
  | EmbeddingsObject e => obj_of_embeddings (Some e)
  | EmbedQueryMethod _ => obj_of_embeddings None
  end.

Definition embed (f : EmbeddingFunction) (text : string) : result Vec :=
  match f with
  | EmbeddingsObject e => embed_query e text
  | EmbedQueryMethod e => embed_query e text
  end.

(** [vectorstore.similarity_search(query)] *)
Definition similarity_search (vectorstore : FAISS) (query : string) : result (list Document) :=
  v ← embed (embedding_function vectorstore) query;
  similarity_search_by_vector
    (index vectorstore) (index_to_docstore_id vectorstore) (docstore vectorstore) v.

Record VectorStoreRetriever := mkRetriever { vectorstore : FAISS }.

Definition as_retriever (vs : FAISS) : VectorStoreRetriever := mkRetriever vs.

(** [retriever.invoke(inputs)] on the module's global, which is [None] until
    startup has assigned it. *)
Definition invoke (r : option VectorStoreRetriever) (text : string) : result (list Document) :=
  match r with
  | None => Raise (Exception "AttributeError" "'NoneType' object has no attribute 'invoke'")
  | Some r => similarity_search (vectorstore r) text
  end.

(** ** The world the module runs in *)

Record World := mkWorld {
  files : gmap string bytes;
  events : list Event;
  retriever : option VectorStoreRetriever
}.

Definition M (A : Type) : Type := World → result A * World.

Definition ret {A} (a : A) : M A := λ w, (Ok a, w).

Definition raise {A} (e : PyExc) : M A := λ w, (Raise e, w).

Definition bind {A B} (m : M A) (k : A → M B) : M B :=
  λ w, match m w with
       | (Ok a, w') => k a w'
       | (Raise e, w') => (Raise e, w')
       end.

#[global] Instance M_ret : MRet M := @ret.
#[global] Instance M_bind : MBind M := λ A B k m, bind m k.

Definition lift {A} (r : result A) : M A := λ w, (r, w).

(** [try: body except Exception as e: handler(e)] *)
Definition try_except {A} (body : M A) (handler : PyExc → M A) : M A :=
  λ w, match body w with
       | (Ok a, w') => (Ok a, w')
       | (Raise e, w') => handler e w'
       end.

Definition emit (ev : Event) : M unit :=
  λ w, (Ok (), mkWorld (files w) (events w ++ [ev]) (retriever w)).

Definition get_files : M (gmap string bytes) := λ w, (Ok (files w), w).

Definition set_files (fs : gmap string bytes) : M unit :=
  λ w, (Ok (), mkWorld fs (events w) (retriever w)).

Definition get_retriever : M (option VectorStoreRetriever) := λ w, (Ok (retriever w), w).

Definition set_retriever (r : option VectorStoreRetriever) : M unit :=
  λ w, (Ok (), mkWorld (files w) (events w) r).

(** Files.  Writing creates or replaces the file; the directory is taken to
    exist and to be writable ([embed_file] creates it before it saves). *)
Definition os_path_exists (path : string) : M bool :=
  fs ← get_files; ret (bool_decide (is_Some (fs !! path))).

Definition os_makedirs (path : string) : M unit := emit (EvMakedirs path).

(** Reading a file; [missing] is what the reader raises when there is none. *)
Definition read_file (missing : PyExc) (path : string) : M bytes :=
  fs ← get_files;
  match fs !! path with
  | Some data => ret data
  | None => raise missing
  end.

(** [open(path, "rb")] *)
Definition open_rb (path : string) : M bytes :=
  read_file
    (Exception "FileNotFoundError"
       ("[Errno 2] No such file or directory: '" +:+ path +:+ "'")) path.

(** [open(path, "wb")] *)
Definition open_wb (path : string) : M unit :=
  fs ← get_files; set_files (<[path := []]> fs).

(** a write through the open file: appended after what was written so far *)
Definition file_write (path : string) (data : bytes) : M unit :=
  fs ← get_files; set_files (<[path := default [] (fs !! path) ++ data]> fs).

Definition faiss_write_index (i : Index) (path : string) : M unit :=
  fs ← get_files; set_files (<[path := faiss_serialize i]> fs).

(** [faiss.read_index(path)]; faiss reports a file it cannot open as a
    [RuntimeError] that names the path. *)
Definition faiss_read_index (path : string) : M Index :=
  data ← read_file
    (Exception "RuntimeError"
       ("could not open " +:+ path +:+ " for reading: No such file or directory")) path;
  lift (faiss_deserialize data).

Definition pickle_dump (obj : PyObj) (f : string) : M unit :=
  file_write f (pickle_dumps obj).

(** ** redhat.py *)

(** The two [os.makedirs] calls at import time. *)
Definition module_init : M unit :=
  os_makedirs ".cache/embeddings/redhat";;
  os_makedirs ".cache/files/redhat".

(** [timeout = httpx.Timeout(120.0, read=120.0)] *)
Definition timeout : Timeout := mkTimeout 120 120 120 120.

Definition OLLAMA_URL : string := "http://20.39.201.16:11434/api/generate".

Definition RAG_PROMPT_PREAMBLE : string :=
  "당신은 질문에 친절하게 답변하는 REDHAT AI입니다. 주어진 문맥을 사용하여 질문에 답변하세요. 답을 모른다면 모른다고 답변하세요.".

Definition RAG_PROMPT_TEMPLATE : string :=
  RAG_PROMPT_PREAMBLE +:+ LF +:+
  "Question: {question}" +:+ LF +:+
  "Context: {context}" +:+ LF +:+
  "Answer:".

(** Writes the index file, then opens the side tables file and dumps three
    objects into it one after the other. *)
Definition save_faiss_index (vectorstore : FAISS) (dir_path : string) : M unit :=
  faiss_write_index (index vectorstore) (os_path_join dir_path "index.faiss");;
  let f := os_path_join dir_path "index.pkl" in
  open_wb f;;
  pickle_dump (index_to_docstore_id vectorstore) f;;
  pickle_dump (docstore vectorstore) f;;
  pickle_dump (embeddings vectorstore) f.

(** Reads the index file, then the first two objects of the side tables
    file, and builds the store around [embeddings.embed_query]. *)
Definition load_faiss_index (dir_path : string) (embeddings : Embeddings) : M FAISS :=
  index ← faiss_read_index (os_path_join dir_path "index.faiss");
  f ← open_rb (os_path_join dir_path "index.pkl");
  '(index_to_docstore_id, f) ← lift (pickle_loads f);
  '(docstore, f) ← lift (pickle_loads f);
  ret (mkFAISS index docstore index_to_docstore_id (EmbedQueryMethod embeddings)).

Definition UnstructuredFileLoader_load_and_split
    (file_path : string) (text_splitter : RecursiveCharacterTextSplitter) : M (list Document) :=
  emit (EvLoadAndSplit file_path text_splitter);;
  fs ← get_files;
  lift (load_and_split fs file_path text_splitter).

Definition FAISS_from_documents (docs : list Document) (embedding : Embeddings) : M FAISS :=
  emit (EvFromDocuments docs embedding);;
  fs ← get_files;
  let '(built, fs') := from_documents fs docs embedding in
  set_files fs';;
  '(index, index_to_docstore_id, docstore) ← lift built;
  ret (mkFAISS index docstore index_to_docstore_id (EmbeddingsObject embedding)).

(** The f-string [./.cache/embeddings/redhat/{os.path.basename(file_path)}]. *)
Definition cache_dir_path_of (file_path : string) : string :=
  "./.cache/embeddings/redhat/" +:+ os_path_basename file_path.

(** Loads the persisted index if its file is there; else splits the
    document, embeds and indexes the chunks, and saves the index. *)
Definition embed_file (file_path : string) : M VectorStoreRetriever :=
  let cache_dir_path := cache_dir_path_of file_path in
  cached ← os_path_exists (os_path_join cache_dir_path "index.faiss");
  if (cached : bool) then
    let embeddings := HuggingFaceEmbeddings "/home/osslab/mumul_dev/bge-m3" "cpu" true in
    let cached_embeddings := from_bytes_store embeddings (mkLocalFileStore cache_dir_path) in
    vectorstore ← load_faiss_index cache_dir_path cached_embeddings;
    let retriever := as_retriever vectorstore in
    ret retriever
  else
    let text_splitter :=
      mkSplitter 500 50 [LF +:+ LF; LF; "(?<=\. )"; " "; ""] len in
    docs ← UnstructuredFileLoader_load_and_split file_path text_splitter;
    let embeddings := HuggingFaceEmbeddings "/home/osslab/mumul_dev/bge-m3" "cpu" true in
    let cached_embeddings := from_bytes_store embeddings (mkLocalFileStore cache_dir_path) in
    vectorstore ← FAISS_from_documents docs cached_embeddings;
    os_makedirs cache_dir_path;;
    save_faiss_index vectorstore cache_dir_path;;
    let retriever := as_retriever vectorstore in
    ret retriever.

(** [response.raise_for_status()]: httpx raises for every status outside
    200..299. *)
Definition is_success (r : Response) : bool :=
  (200 <=? status_code r) && (status_code r <=? 299).

Definition raise_for_status (r : Response) : result Response :=
  if is_success r then Ok r else Raise (HTTPStatusError (status_error_message r) r).

Definition client_post (url : string) (json : Payload) (headers : list (string * string))
    : M Response :=
  λ w, let r := http_post (events w) url json headers timeout in
       (r, mkWorld (files w) (events w ++ [EvPost url json headers timeout]) (retriever w)).

(** One POST to the inference service; the two [except] clauses in the
    order of the source. *)
Definition query_ollama (inputs : string) : M Json :=
  try_except
    (let payload := mkPayload "EEVE-Korean-10.8B:latest" inputs false in
     let headers := [("Content-Type", "application/json")] in
     response ← client_post OLLAMA_URL payload headers;
     _ ← lift (raise_for_status response);
     result ← lift (response_json response);
     lift (json_getitem result "response"))
    (λ e,
       match e with
       | HTTPStatusError _ response =>
           raise (HTTPException (status_code response) (text response))
       | e => raise (HTTPException 500 (str e))
       end).

(** Retrieval on the global retriever, then the prompt, then inference. *)
Definition process_query (inputs : string) : M Json :=
  r ← get_retriever;
  context_docs ← lift (invoke r inputs);
  let context := str_join (LF +:+ LF) (page_content <$> context_docs) in
  prompt ← lift (str_format RAG_PROMPT_TEMPLATE [("question", inputs); ("context", context)]);
  answer ← query_ollama prompt;
  ret answer.

Fixpoint for_each {A} (xs : list A) (body : A → M unit) : M unit :=
  match xs with
  | [] => ret ()
  | x :: rest => body x;; for_each rest body
  end.

(** Assigns the module's global [retriever]. *)
Definition load_and_embed_pdfs : M unit :=
  let pdf_files :=
    ["/home/osslab/red_hat_enterprise_linux-7-system_administrators_guide-ko-kr.pdf"] in
  for_each pdf_files (λ pdf_file, r ← embed_file pdf_file; set_retriever (Some r)).

Definition on_startup : M unit := load_and_embed_pdfs.

(** What the endpoint returns on success: [JSONResponse(content=answer)]. *)
Record JSONResponse := mkJSONResponse { body : string }.

(** [POST /redhat/query] *)
Definition query_doc (query : QueryModel) : M JSONResponse :=
  try_except
    (answer ← process_query (inputs query);
     rendered ← lift (json_render answer);
     ret (mkJSONResponse rendered))
    (λ e,
       match e with
       | HTTPException s d => raise (HTTPException s d)
       | e => raise (HTTPException 500 (str e))
       end).

(** The module's state once its top-level statements have run:
    [retriever = None]. *)
Definition initial_world (fs : gmap string bytes) : World := mkWorld fs [] None.

(** ** Observations used in the statements *)

(** The provider behind a store's embedding function. *)
Definition provider_of (f : EmbeddingFunction) : Embeddings :=
  match f with
  | EmbeddingsObject e => e
  | EmbedQueryMethod e => e
  end.

(** The byte store of a cache-backed provider. *)
Definition byte_store (e : Embeddings) : option LocalFileStore :=
  match e with
  | CacheBackedEmbeddings _ store => Some store
  | HuggingFaceEmbeddings _ _ _ => None
  end.

(** The outcome of the calls inside the [try] of [query_ollama], given what
    the service does with the request. *)
Definition ollama_exchange (evs : list Event) (inputs : string) : result Json :=
  response ← http_post evs OLLAMA_URL (mkPayload "EEVE-Korean-10.8B:latest" inputs false)
    [("Content-Type", "application/json")] timeout;
  _ ← raise_for_status response;
  result ← response_json response;
  json_getitem result "response".

(** The events an action adds to the world it starts in. *)
Definition trace_of {A} (m : M A) (w : World) : list Event :=
  drop (length (events w)) (events (m w).2).

End Redhat.

(** The splitter and the provider that [embed_file] constructs, named for
    the statements. *)
Definition redhat_text_splitter : RecursiveCharacterTextSplitter :=
  mkSplitter 500 50 [LF +:+ LF; LF; "(?<=\. )"; " "; ""] len.

Definition redhat_embeddings (cache_dir_path : string) : Embeddings :=
  CacheBackedEmbeddings (HuggingFaceEmbeddings "/home/osslab/mumul_dev/bge-m3" "cpu" true)
    (mkLocalFileStore cache_dir_path).

(** [path] lies in or below [dir], textually: [dir] is a prefix of [path]. *)
Fixpoint under (dir path : string) : bool :=
  match dir with
  | EmptyString => true
  | String a dir' =>
      match path with
      | EmptyString => false
      | String b path' => Ascii.eqb a b && under dir' path'
      end
  end.

(** [s] has a slash somewhere. *)
Fixpoint contains_slash (s : string) : bool :=
  match s with
  | EmptyString => false
  | String c s' => Ascii.eqb c "/" || contains_slash s'
  end.

(** The one request [query_ollama] sends for a prompt. *)
Definition ollama_request (prompt : string) : Event :=
  EvPost OLLAMA_URL (mkPayload "EEVE-Korean-10.8B:latest" prompt false)
    [("Content-Type", "application/json")] timeout.

(** The prompts of the requests sent to the inference service. *)
Definition posted_prompts (evs : list Event) : list string :=
  omap (λ ev, match ev with EvPost _ p _ _ => Some (prompt p) | _ => None end) evs.

(** The chunk lists handed to [FAISS.from_documents]. *)
Definition indexed_chunks (evs : list Event) : list (list Document) :=
  omap (λ ev, match ev with EvFromDocuments docs _ => Some docs | _ => None end) evs.

(** The prompt as the specification words it: the template
    [Question: {inputs}\nContext: {joined chunk texts}\nAnswer:] and nothing
    else. *)
Definition spec_prompt (inputs context : string) : string :=
  "Question: " +:+ inputs +:+ LF +:+ "Context: " +:+ context +:+ LF +:+ "Answer:".

(** ** A stub of the libraries

    A small instance of [Libraries], used to run the module on concrete
    inputs: indexes are their own bytes, a pickle is one byte, every text
    embeds to itself, the loader yields two short chunks (those that fit the
    chunk size), the inference service answers 503 "overloaded". *)
Definition stub_libraries : Libraries := {|
  Index := bytes;
  Vec := string;
  PyObj := byte;
  Json := string;
  faiss_serialize i := i;
  faiss_deserialize b := Ok b;
  pickle_dumps o := [o];
  pickle_loads b :=
    match b with
    | o :: rest => Ok (o, rest)
    | [] => Raise (Exception "EOFError" "Ran out of input")
    end;
  obj_of_embeddings e := match e with Some _ => x45 | None => x4e end;
  hf_embed_query _ _ _ text := Ok text;
  similarity_search_by_vector _ _ _ v := Ok [mkDocument v []; mkDocument "ctx" []];
  load_and_split _ path ts :=
    Ok (filter (λ d, (length_function ts (page_content d) ≤ chunk_size ts)%nat)
          [mkDocument "chunk one" [("source", path)];
           mkDocument "chunk two" [("source", path)]]);
  from_documents fs _ _ := (Ok ([x01], x02, x03), fs);
  http_post _ _ _ _ _ := Ok (mkResponse 503 "overloaded");
  status_error_message _ := "Server error '503 Service Unavailable'";
  response_json r := Ok (text r);
  json_getitem j _ := Ok j;
  json_render j := Ok j
|}.
(** A store, a provider and worlds over the stub. *)
Definition stub_provider : Embeddings := HuggingFaceEmbeddings "bge-m3" "cpu" true.

Definition stub_store : @FAISS stub_libraries :=
  @mkFAISS stub_libraries [x01] x03 x02 (EmbeddingsObject stub_provider).

Definition stub_pdf : string := "/home/osslab/guide-ko-kr.pdf".

(** nothing on disk, startup not yet run *)
Definition stub_fresh : @World stub_libraries := @initial_world stub_libraries ∅.


(** startup done: the global retriever is bound to [stub_store] *)
Definition stub_started : @World stub_libraries :=
  @mkWorld stub_libraries ∅ [] (Some (@as_retriever stub_libraries stub_store)).

(** an index file in the cache directory of [stub_pdf], without its side
    tables file *)
Definition stub_index_only : @World stub_libraries :=
  @mkWorld stub_libraries
    (<["./.cache/embeddings/redhat/guide-ko-kr.pdf/index.faiss" := [x01]]> ∅) [] None.

(** * Properties *)

(** ** Paths *)

Lemma append_inj_l (p a b : string) : p +:+ a = p +:+ b → a = b.
Proof.
  apply String.app_inj.
Qed.

Lemma append_assoc (x y z : string) : (x +:+ y) +:+ z = x +:+ y +:+ z.
Proof.
  induction x as [|a x IH]; [done|].
  change (String a ((x +:+ y) +:+ z) = String a (x +:+ y +:+ z)). by rewrite IH.
Qed.

(** Joining a relative name prepends the same prefix whatever the name. *)
Lemma os_path_join_relative (d : string) :
  ∃ prefix, ∀ c name, c ≠ "/"%char →
    os_path_join d (String c name) = prefix +:+ String c name.
Proof.
  destruct (String.eqb d "" || ends_with_slash d) eqn:E.
  - exists d. intros c name Hc. unfold os_path_join.
    destruct c as [[] [] [] [] [] [] [] []]; try (by rewrite E). by destruct Hc.
  - exists (d +:+ "/"). intros c name Hc. unfold os_path_join.
    destruct c as [[] [] [] [] [] [] [] []];
      try (by rewrite E, append_assoc). by destruct Hc.
Qed.

Lemma index_paths_distinct (dir_path : string) :
  os_path_join dir_path "index.faiss" ≠ os_path_join dir_path "index.pkl".
Proof.
  destruct (os_path_join_relative dir_path) as [prefix Hp].
  rewrite !Hp by done. intros Heq. apply append_inj_l in Heq. discriminate.
Qed.

(** ** Checks of the text and path functions *)

Example basename_pdf : os_path_basename "/home/osslab/guide-ko-kr.pdf" = "guide-ko-kr.pdf".
Proof. reflexivity. Qed.

Example basename_trailing_slash : os_path_basename "docs/" = "".
Proof. reflexivity. Qed.

Example join_plain : os_path_join "./.cache/x" "index.faiss" = "./.cache/x/index.faiss".
Proof. reflexivity. Qed.

Example join_slash : os_path_join "./.cache/" "index.pkl" = "./.cache/index.pkl".
Proof. reflexivity. Qed.

Example format_two_fields :
  str_format "a {x} b {{y}} {x}{z}" [("x", "{z}"); ("z", "!")] = Ok "a {z} b {y} {z}!".
Proof. reflexivity. Qed.

Example len_counts_code_points : len "답 ok" = 4%nat.
Proof. reflexivity. Qed.

Example join_two_chunks : str_join (LF +:+ LF) ["a"; "b"] = "a" +:+ LF +:+ LF +:+ "b".
Proof. reflexivity. Qed.

Arguments os_path_join : simpl never.
Arguments os_path_basename : simpl never.
Arguments str_format : simpl never.
Arguments str_join : simpl never.

(** Unfolds the monad of the module down to functions on worlds. *)
Ltac run :=
  unfold mbind, M_bind, result_bind, bind, rbind, mret, M_ret, ret, raise, lift,
    try_except, emit, get_files, set_files, get_retriever, set_retriever; simpl.

Section Persistence.
Context `{Libraries}.

(** What [save_faiss_index] leaves behind: the index file, then the side
    tables file holding three pickles one after the other. *)
Lemma save_faiss_index_run (vs : FAISS) (dir_path : string) (w : World) :
  save_faiss_index vs dir_path w =
    (Ok (),
     mkWorld
       (<[os_path_join dir_path "index.pkl" :=
            pickle_dumps (index_to_docstore_id vs) ++ pickle_dumps (docstore vs) ++
            pickle_dumps (embeddings vs)]>
          (<[os_path_join dir_path "index.faiss" := faiss_serialize (index vs)]> (files w)))
       (events w) (retriever w)).
Proof.
  unfold save_faiss_index, faiss_write_index, open_wb, pickle_dump, file_write. run.
  rewrite !lookup_insert_eq. simpl. rewrite !insert_insert_eq.
  by rewrite <- app_assoc.
Qed.

(** What [load_faiss_index] does with a directory holding an index file and
    a side tables file that starts with two pickles. *)
Lemma load_faiss_index_run (dir_path : string) (provider : Embeddings) (w : World)
    (ibytes data rest1 rest2 : bytes) (i : Index) (idmap ds : PyObj) :
  files w !! os_path_join dir_path "index.faiss" = Some ibytes →
  faiss_deserialize ibytes = Ok i →
  files w !! os_path_join dir_path "index.pkl" = Some data →
  pickle_loads data = Ok (idmap, rest1) →
  pickle_loads rest1 = Ok (ds, rest2) →
  load_faiss_index dir_path provider w =
    (Ok (mkFAISS i ds idmap (EmbedQueryMethod provider)), w).
Proof.
  intros Hi Hdes Hp Hl1 Hl2.
  unfold load_faiss_index, faiss_read_index, open_rb, read_file. run.
  rewrite Hi. simpl. rewrite Hdes, Hp. simpl. rewrite Hl1. simpl. by rewrite Hl2.
Qed.

(** Both files lie directly in the target directory. *)
Lemma os_path_join_in_dir (dir_path : string) :
  ∃ sep, (sep = "" ∨ sep = "/") ∧
    os_path_join dir_path "index.faiss" = dir_path +:+ sep +:+ "index.faiss" ∧
    os_path_join dir_path "index.pkl" = dir_path +:+ sep +:+ "index.pkl".
Proof.
  unfold os_path_join.
  destruct (String.eqb dir_path "" || ends_with_slash dir_path).
  - exists "". split; [by left|done].
  - exists "/". split; [by right|done].
Qed.

(** C6 -- persisted file layout.  [save_faiss_index] always succeeds and
    changes exactly two files, both directly in the target directory:
    [index.faiss] holds the serialized index, and [index.pkl] holds, in this
    order, the pickle of the id-mapping, the pickle of the docstore and the
    pickle of the store's embeddings reference.  Every other file, the event
    log and the global retriever are left as they were. *)
Theorem save_faiss_index_layout (vs : FAISS) (dir_path : string) (w : World) :
  let faiss_file := os_path_join dir_path "index.faiss" in
  let pkl_file := os_path_join dir_path "index.pkl" in
  ∃ w',
    save_faiss_index vs dir_path w = (Ok (), w') ∧
    (∃ sep, (sep = "" ∨ sep = "/") ∧
       faiss_file = dir_path +:+ sep +:+ "index.faiss" ∧
       pkl_file = dir_path +:+ sep +:+ "index.pkl") ∧
    faiss_file ≠ pkl_file ∧
    files w' !! faiss_file = Some (faiss_serialize (index vs)) ∧
    files w' !! pkl_file =
      Some (pickle_dumps (index_to_docstore_id vs) ++ pickle_dumps (docstore vs) ++
            pickle_dumps (embeddings vs)) ∧
    (∀ path, path ≠ faiss_file → path ≠ pkl_file → files w' !! path = files w !! path) ∧
    events w' = events w ∧
    retriever w' = retriever w.
Proof.
  intros faiss_file pkl_file. eexists. split; [apply save_faiss_index_run|].
  pose proof (index_paths_distinct dir_path) as Hne. simpl.
  split; [apply os_path_join_in_dir|].
  split; [done|].
  split; [by rewrite lookup_insert_ne, lookup_insert_eq|].
  split; [by rewrite lookup_insert_eq|].
  split; [|done].
  intros path Hf Hp. by rewrite !lookup_insert_ne.
Qed.


(** C1 -- round trip of index persistence.  Let the faiss and pickle
    serializers read back what they wrote.  For every store, saving it to a
    directory and loading that directory with the store's own provider
    succeeds and gives a store that answers every query text exactly as the
    original does, directly and through a retriever. *)
Theorem save_load_round_trip (vs : FAISS) (dir_path : string) (provider : Embeddings)
    (w : World) :
  (∀ i, faiss_deserialize (faiss_serialize i) = Ok i) →
  (∀ o rest, pickle_loads (pickle_dumps o ++ rest) = Ok (o, rest)) →
  provider_of (embedding_function vs) = provider →
  ∃ w1 vs',
    save_faiss_index vs dir_path w = (Ok (), w1) ∧
    load_faiss_index dir_path provider w1 = (Ok vs', w1) ∧
    (∀ text, similarity_search vs' text = similarity_search vs text) ∧
    (∀ text, invoke (Some (as_retriever vs')) text = invoke (Some (as_retriever vs)) text).
Proof.
  intros Hfaiss Hpickle Hprov.
  pose proof (index_paths_distinct dir_path) as Hne.
  eexists _, _. split; [apply save_faiss_index_run|].
  split.
  - eapply load_faiss_index_run; simpl.
    + by rewrite lookup_insert_ne, lookup_insert_eq.
    + apply Hfaiss.
    + by rewrite lookup_insert_eq.
    + apply Hpickle.
    + apply Hpickle.
  - assert (Hq : ∀ text,
        similarity_search
          (mkFAISS (index vs) (docstore vs) (index_to_docstore_id vs)
             (EmbedQueryMethod provider)) text = similarity_search vs text).
    { intros text. unfold similarity_search. simpl.
      rewrite <- Hprov. by destruct (embedding_function vs). }
    split; [done|]. intros text. simpl. apply Hq.
Qed.

End Persistence.

Section Inference.
Context `{Libraries}.

Lemma trace_of_app {A} (m : M A) (w : World) (new : list Event) :
  events (m w).2 = events w ++ new → trace_of m w = new.
Proof. unfold trace_of. intros ->. apply drop_app_length. Qed.

Lemma query_ollama_run (inputs : string) (w : World) :
  query_ollama inputs w =
    (match ollama_exchange (events w) inputs with
     | Ok answer => Ok answer
     | Raise (HTTPStatusError _ response) =>
         Raise (HTTPException (status_code response) (text response))
     | Raise e => Raise (HTTPException 500 (str e))
     end,
     mkWorld (files w) (events w ++ [ollama_request inputs]) (retriever w)).
Proof.
  unfold query_ollama, ollama_exchange, client_post, ollama_request. run.
  destruct (http_post _ _ _ _ _) as [response|e]; simpl.
  - destruct (raise_for_status response) as [?|e]; simpl.
    + destruct (response_json response) as [j|e]; simpl.
      * destruct (json_getitem j "response") as [?|e]; simpl; [done|]. by destruct e.
      * by destruct e.
    + by destruct e.
  - by destruct e.
Qed.

(** C3 -- inference client error mapping.  Whatever happens, [query_ollama]
    sends exactly one request (no retry) and touches neither the files nor
    the global retriever.  A response whose status is outside 200..299 is
    raised as an [HTTPException] with that status and the response body as
    detail.  Every other failure [e] -- of the transport, of decoding the
    body, or of reading the ["response"] key -- is raised as an
    [HTTPException] with status 500 and detail [str(e)]. *)
Theorem query_ollama_error_mapping (inputs : string) (w : World) :
  let outcome :=
    http_post (events w) OLLAMA_URL (mkPayload "EEVE-Korean-10.8B:latest" inputs false)
      [("Content-Type", "application/json")] timeout in
  let after := query_ollama inputs w in
  trace_of (query_ollama inputs) w = [ollama_request inputs] ∧
  length (filter (λ ev, is_post ev = true) (trace_of (query_ollama inputs) w)) = 1%nat ∧
  files after.2 = files w ∧ retriever after.2 = retriever w ∧
  (∀ response, is_success response = false ↔
     (status_code response < 200 ∨ 299 < status_code response)) ∧
  (∀ response, outcome = Ok response → is_success response = false →
     after.1 = Raise (HTTPException (status_code response) (text response))) ∧
  (∀ e, (∀ m r, e ≠ HTTPStatusError m r) →
     (outcome = Raise e ∨
      ∃ response, outcome = Ok response ∧ is_success response = true ∧
        (response_json response = Raise e ∨
         ∃ j, response_json response = Ok j ∧ json_getitem j "response" = Raise e)) →
     after.1 = Raise (HTTPException 500 (str e))).
Proof.
  intros outcome after. subst after. rewrite query_ollama_run. simpl.
  assert (Htrace : trace_of (query_ollama inputs) w = [ollama_request inputs]).
  { apply trace_of_app. by rewrite query_ollama_run. }
  rewrite Htrace.
  split; [done|]. split; [done|]. split; [done|]. split; [done|].
  split; [|split].
  - intros response. unfold is_success. rewrite andb_false_iff, !Z.leb_gt. lia.
  - intros response Hout Hfail. unfold ollama_exchange. fold outcome. rewrite Hout.
    run. unfold raise_for_status. by rewrite Hfail.
  - intros e Hne Hcase. unfold ollama_exchange. fold outcome.
    assert (Hmap : ∀ (r : result Json), r = Raise e →
      match r with
      | Ok answer => Ok answer
      | Raise (HTTPStatusError _ response) =>
          Raise (HTTPException (status_code response) (text response))
      | Raise e0 => Raise (HTTPException 500 (str e0))
      end = Raise (HTTPException 500 (str e))).
    { intros r ->. destruct e; try done. by destruct (Hne message response). }
    apply Hmap.
    destruct Hcase as [Hout|(response & Hout & Hok & Hcase)]; rewrite Hout; [done|].
    run. unfold raise_for_status. rewrite Hok.
    destruct Hcase as [Hj|(j & Hj & Hk)]; rewrite Hj; [done|]. by rewrite Hk.
Qed.

End Inference.

Section Endpoint.
Context `{Libraries}.

(** Formatting the template never fails, whatever the question and the
    context contain (braces included): the result is the instruction line, a
    line break, and the three lines Question / Context / Answer. *)
Lemma format_rag_prompt (inputs context : string) :
  str_format RAG_PROMPT_TEMPLATE [("question", inputs); ("context", context)] =
    Ok (RAG_PROMPT_PREAMBLE +:+ LF +:+ spec_prompt inputs context).
Proof. vm_compute. reflexivity. Qed.

Lemma process_query_run (inputs : string) (w : World) :
  process_query inputs w =
    match invoke (retriever w) inputs with
    | Raise e => (Raise e, w)
    | Ok context_docs =>
        query_ollama
          (RAG_PROMPT_PREAMBLE +:+ LF +:+
           spec_prompt inputs (str_join (LF +:+ LF) (page_content <$> context_docs))) w
    end.
Proof.
  unfold process_query, mbind, M_bind, bind, get_retriever, lift, mret, M_ret, ret.
  cbv beta iota.
  destruct (invoke (retriever w) inputs) as [docs|e]; [|done].
  rewrite format_rag_prompt.
  by destruct (query_ollama _ w) as [[?|?] ?].
Qed.

Lemma query_doc_run (query : QueryModel) (w : World) :
  query_doc query w =
    (match (process_query (inputs query) w).1 with
     | Ok answer =>
         match json_render answer with
         | Ok rendered => Ok (mkJSONResponse rendered)
         | Raise (HTTPException s d) => Raise (HTTPException s d)
         | Raise e => Raise (HTTPException 500 (str e))
         end
     | Raise (HTTPException s d) => Raise (HTTPException s d)
     | Raise e => Raise (HTTPException 500 (str e))
     end,
     (process_query (inputs query) w).2).
Proof.
  unfold query_doc, try_except, mbind, M_bind, bind, lift, mret, M_ret, ret, raise.
  destruct (process_query (inputs query) w) as [[answer|e] w']; simpl.
  - destruct (json_render answer) as [?|e]; [done|]. by destruct e.
  - by destruct e.
Qed.

(** C5, as amended -- prompt composition.  When retrieval returns chunks,
    [process_query] sends one request whose prompt is the fixed instruction
    line of the template, a line break, and then
    [Question: {inputs}], [Context: {the chunk texts joined by a blank line}],
    [Answer:] on three lines. *)
Theorem process_query_prompt (inputs : string) (w : World) (context_docs : list Document) :
  invoke (retriever w) inputs = Ok context_docs →
  let context := str_join (LF +:+ LF) (page_content <$> context_docs) in
  trace_of (process_query inputs) w =
    [ollama_request (RAG_PROMPT_PREAMBLE +:+ LF +:+ spec_prompt inputs context)] ∧
  posted_prompts (trace_of (process_query inputs) w) =
    [RAG_PROMPT_PREAMBLE +:+ LF +:+ spec_prompt inputs context].
Proof.
  intros Hdocs context.
  assert (Htrace : trace_of (process_query inputs) w =
    [ollama_request (RAG_PROMPT_PREAMBLE +:+ LF +:+ spec_prompt inputs context)]).
  { apply trace_of_app. rewrite process_query_run, Hdocs. by rewrite query_ollama_run. }
  by rewrite Htrace.
Qed.

(** C4 -- endpoint exception handling.  Let [attempt] be the run of
    [process_query] on the request.  If it raises an [HTTPException], the
    endpoint raises the same exception; if it raises anything else, or if
    rendering the answer raises, the endpoint raises an [HTTPException] with
    status 500 and detail [str(e)].  A failed attempt is therefore never
    turned into an answer.  A failure of retrieval reaches the endpoint as it
    was raised, and after a successful retrieval the attempt is the call of
    the inference client. *)
Theorem query_doc_exception_handling (query : QueryModel) (w : World) :
  let attempt := process_query (inputs query) w in
  (∀ s d, attempt.1 = Raise (HTTPException s d) →
     query_doc query w = (Raise (HTTPException s d), attempt.2)) ∧
  (∀ e, attempt.1 = Raise e → (∀ s d, e ≠ HTTPException s d) →
     query_doc query w = (Raise (HTTPException 500 (str e)), attempt.2)) ∧
  (∀ answer e, attempt.1 = Ok answer → json_render answer = Raise e →
     (∀ s d, e ≠ HTTPException s d) →
     query_doc query w = (Raise (HTTPException 500 (str e)), attempt.2)) ∧
  (∀ e, attempt.1 = Raise e → ∃ s d, (query_doc query w).1 = Raise (HTTPException s d)) ∧
  (∀ e, invoke (retriever w) (inputs query) = Raise e → attempt = (Raise e, w)) ∧
  (∀ context_docs, invoke (retriever w) (inputs query) = Ok context_docs →
     attempt =
       query_ollama
         (RAG_PROMPT_PREAMBLE +:+ LF +:+
          spec_prompt (inputs query)
            (str_join (LF +:+ LF) (page_content <$> context_docs))) w).
Proof.
  intros attempt. subst attempt. rewrite query_doc_run.
  repeat split.
  - intros s d ->. done.
  - intros e -> Hne. destruct e; try done. by destruct (Hne status detail).
  - intros answer e -> -> Hne. destruct e; try done. by destruct (Hne status detail).
  - intros e ->. simpl. destruct e; eauto.
  - intros e He. by rewrite process_query_run, He.
  - intros docs Hd. by rewrite process_query_run, Hd.
Qed.

(** C10 -- a query before startup.  The module starts with its global
    retriever set to [None], and the import-time statements leave it so.  In
    any such world retrieval raises the [AttributeError] of [None.invoke], and
    the endpoint turns it into an [HTTPException] with status 500 carrying
    that message; no request is sent and the world is unchanged. *)
Theorem query_before_startup (query : QueryModel) (fs : gmap string bytes)
    (evs : list Event) :
  retriever (initial_world fs) = None ∧
  retriever (module_init (initial_world fs)).2 = None ∧
  let w := mkWorld fs evs None in
  invoke (retriever w) (inputs query) =
    Raise (Exception "AttributeError" "'NoneType' object has no attribute 'invoke'") ∧
  process_query (inputs query) w =
    (Raise (Exception "AttributeError" "'NoneType' object has no attribute 'invoke'"), w) ∧
  query_doc query w =
    (Raise (HTTPException 500 "'NoneType' object has no attribute 'invoke'"), w) ∧
  trace_of (query_doc query) w = [].
Proof.
  split; [done|]. split; [done|]. intros w.
  assert (Hp : process_query (inputs query) w =
    (Raise (Exception "AttributeError" "'NoneType' object has no attribute 'invoke'"), w)).
  { by rewrite process_query_run. }
  assert (Hq : query_doc query w =
    (Raise (HTTPException 500 "'NoneType' object has no attribute 'invoke'"), w)).
  { by rewrite query_doc_run, Hp. }
  split; [done|]. split; [done|]. split; [done|].
  apply trace_of_app. rewrite Hq. simpl. by rewrite app_nil_r.
Qed.

End Endpoint.

Section Cache.
Context `{Libraries}.

(** Loading only reads: whatever it returns, the world is as before. *)
Lemma load_faiss_index_world (dir_path : string) (provider : Embeddings) (w : World) :
  (load_faiss_index dir_path provider w).2 = w.
Proof.
  unfold load_faiss_index, faiss_read_index, open_rb, read_file. run.
  destruct (files w !! os_path_join dir_path "index.faiss") as [ibytes|]; simpl; [|done].
  destruct (faiss_deserialize ibytes) as [i|e]; simpl; [|done].
  destruct (files w !! os_path_join dir_path "index.pkl") as [data|]; simpl; [|done].
  destruct (pickle_loads data) as [[idmap rest1]|e]; simpl; [|done].
  by destruct (pickle_loads rest1) as [[ds rest2]|e].
Qed.

Lemma embed_file_hit (file_path : string) (w : World) :
  is_Some (files w !! os_path_join (cache_dir_path_of file_path) "index.faiss") →
  embed_file file_path w =
    (vs ← load_faiss_index (cache_dir_path_of file_path)
            (redhat_embeddings (cache_dir_path_of file_path));
     mret (as_retriever vs)) w.
Proof.
  intros Hex. unfold embed_file, os_path_exists. run.
  by rewrite bool_decide_eq_true_2.
Qed.

(** The cache-miss path, step by step. *)
Lemma embed_file_miss (file_path : string) (w : World) :
  files w !! os_path_join (cache_dir_path_of file_path) "index.faiss" = None →
  let dir := cache_dir_path_of file_path in
  let ev1 := EvLoadAndSplit file_path redhat_text_splitter in
  embed_file file_path w =
    match load_and_split (files w) file_path redhat_text_splitter with
    | Raise e => (Raise e, mkWorld (files w) (events w ++ [ev1]) (retriever w))
    | Ok docs =>
        let ev2 := EvFromDocuments docs (redhat_embeddings dir) in
        match from_documents (files w) docs (redhat_embeddings dir) with
        | (Raise e, fs') =>
            (Raise e, mkWorld fs' ((events w ++ [ev1]) ++ [ev2]) (retriever w))
        | (Ok (i, idmap, ds), fs') =>
            let vs := mkFAISS i ds idmap (EmbeddingsObject (redhat_embeddings dir)) in
            (Ok (as_retriever vs),
             mkWorld
               (<[os_path_join dir "index.pkl" :=
                    pickle_dumps idmap ++ pickle_dumps ds ++ pickle_dumps (embeddings vs)]>
                  (<[os_path_join dir "index.faiss" := faiss_serialize i]> fs'))
               (((events w ++ [ev1]) ++ [ev2]) ++ [EvMakedirs dir]) (retriever w))
        end
    end.
Proof.
  intros Hno dir ev1.
  unfold embed_file, os_path_exists, UnstructuredFileLoader_load_and_split,
    FAISS_from_documents, os_makedirs. run.
  rewrite bool_decide_eq_false_2 by (rewrite Hno; by intros [? ?]).
  fold redhat_text_splitter. fold dir.
  destruct (load_and_split (files w) file_path redhat_text_splitter) as [docs|e]; [|done].
  unfold from_bytes_store. fold (redhat_embeddings dir).
  destruct (from_documents (files w) docs (redhat_embeddings dir)) as [[[[i idmap] ds]|e] fs'];
    simpl; [|done].
  rewrite !lookup_insert_eq. simpl. rewrite !insert_insert_eq.
  by rewrite <- app_assoc.
Qed.

(** On the cache-miss path the first thing asked of the world is to load
    and split the source document, with the splitter of the module. *)
Lemma embed_file_miss_events (file_path : string) (w : World) :
  files w !! os_path_join (cache_dir_path_of file_path) "index.faiss" = None →
  ∃ rest,
    events (embed_file file_path w).2 =
      events w ++ EvLoadAndSplit file_path redhat_text_splitter :: rest ∧
    Forall (λ ev, is_ingestion ev = false) rest ∧
    ∀ docs e, EvFromDocuments docs e ∈ rest →
      load_and_split (files w) file_path redhat_text_splitter = Ok docs ∧
      e = redhat_embeddings (cache_dir_path_of file_path).
Proof.
  intros Hno. rewrite (embed_file_miss _ _ Hno). simpl.
  destruct (load_and_split (files w) file_path redhat_text_splitter) as [docs|e].
  - destruct (from_documents _ _ _) as [[[[i idmap] ds]|e] fs']; simpl.
    + eexists. rewrite <- !app_assoc. simpl. split; [done|].
      split; [by repeat constructor|].
      intros docs' e' Hin. apply elem_of_cons in Hin as [Heq|Hin].
      * by injection Heq as -> ->.
      * apply list_elem_of_singleton in Hin. discriminate.
    + eexists. rewrite <- !app_assoc. simpl. split; [done|].
      split; [by repeat constructor|].
      intros docs' e' Hin. apply list_elem_of_singleton in Hin.
      by injection Hin as -> ->.
  - exists []. simpl. split; [done|]. split; [constructor|].
    intros docs' e' Hin. by apply elem_of_nil in Hin.
Qed.

(** C2 -- cache decision and cache-hit path.  The cache directory is
    [./.cache/embeddings/redhat/] followed by the base name of the source
    file.  [embed_file] is the load path -- [load_faiss_index] on that
    directory with a newly built cache-backed provider, wrapped as a
    retriever -- exactly when [index.faiss] exists in that directory; this
    is also exactly when its run contains no load-and-split of the source
    document.  On that path it asks nothing of the world at all and leaves
    the files as they were. *)
Theorem embed_file_cache_decision (file_path : string) (w : World) :
  let cache_dir_path := cache_dir_path_of file_path in
  let index_file := os_path_join cache_dir_path "index.faiss" in
  let load_path : M VectorStoreRetriever :=
    vs ← load_faiss_index cache_dir_path (redhat_embeddings cache_dir_path);
    mret (as_retriever vs) in
  cache_dir_path = "./.cache/embeddings/redhat/" +:+ os_path_basename file_path ∧
  (is_Some (files w !! index_file) ↔ embed_file file_path w = load_path w) ∧
  (is_Some (files w !! index_file) ↔
     Forall (λ ev, is_ingestion ev = false) (trace_of (embed_file file_path) w)) ∧
  (is_Some (files w !! index_file) →
     trace_of (embed_file file_path) w = [] ∧ (embed_file file_path w).2 = w).
Proof.
  intros cache_dir_path index_file load_path.
  assert (Hload : (load_path w).2 = w).
  { subst load_path. unfold mbind, M_bind, bind.
    pose proof (load_faiss_index_world cache_dir_path (redhat_embeddings cache_dir_path) w)
      as Hw.
    by destruct (load_faiss_index _ _ w) as [[vs|e] w']. }
  assert (Hpath : is_Some (files w !! index_file) → embed_file file_path w = load_path w).
  { apply embed_file_hit. }
  assert (Hhit : is_Some (files w !! index_file) →
    trace_of (embed_file file_path) w = [] ∧ (embed_file file_path w).2 = w).
  { intros Hex. rewrite (Hpath Hex).
    split; [|done]. apply trace_of_app. by rewrite Hpath, Hload, app_nil_r. }
  assert (Hmiss : files w !! index_file = None →
    ∃ rest, events (embed_file file_path w).2 =
      events w ++ EvLoadAndSplit file_path redhat_text_splitter :: rest).
  { intros Hno. destruct (embed_file_miss_events _ _ Hno) as (rest & Hev & _). eauto. }
  split; [done|]. split; [|split]; [| |done].
  - split; [done|].
    intros Heq. destruct (files w !! index_file) eqn:E; [done|].
    destruct (Hmiss eq_refl) as [rest Hev]. rewrite Heq, Hload in Hev.
    apply (f_equal length) in Hev. rewrite length_app in Hev. simpl in Hev. lia.
  - split.
    + intros Hex. destruct (Hhit Hex) as [-> _]. constructor.
    + intros Hall. destruct (files w !! index_file) eqn:E; [done|].
      destruct (Hmiss eq_refl) as [rest Hev].
      rewrite (trace_of_app _ _ _ Hev) in Hall. by inversion Hall.
Qed.


(** C8, as amended -- location of the embedding byte store.  Whenever
    [embed_file] returns a retriever, on either path, the provider behind it
    caches its embeddings in a byte store rooted at the cache directory
    [./.cache/embeddings/redhat/<base name of the source file>], the
    directory of [index.faiss] and [index.pkl]; that root is not in or below
    [files/redhat] of the cache root.  The provider handed to
    [FAISS.from_documents] on the cache-miss path has the same byte store.
    The directory [.cache/files/redhat] is one of the two that the module
    creates when it is imported. *)
Theorem embed_file_byte_store (file_path : string) (w w' : World) (r : VectorStoreRetriever) :
  embed_file file_path w = (Ok r, w') →
  let cache_dir_path := "./.cache/embeddings/redhat/" +:+ os_path_basename file_path in
  byte_store (provider_of (embedding_function (vectorstore r))) =
    Some (mkLocalFileStore cache_dir_path) ∧
  (∀ docs e, EvFromDocuments docs e ∈ trace_of (embed_file file_path) w →
     byte_store e = Some (mkLocalFileStore cache_dir_path)) ∧
  under "./.cache/embeddings/redhat/" cache_dir_path = true ∧
  under "./.cache/files/redhat" cache_dir_path = false ∧
  under ".cache/files/redhat" cache_dir_path = false ∧
  ∀ w0, trace_of module_init w0 =
    [EvMakedirs ".cache/embeddings/redhat"; EvMakedirs ".cache/files/redhat"].
Proof.
  intros Hrun cache_dir_path.
  change cache_dir_path with (cache_dir_path_of file_path).
  split; [|split; [|repeat split; try (by vm_compute)]]; cycle 2.
  { intros w0. apply trace_of_app. simpl. by rewrite <- app_assoc. }
  - destruct (files w !! os_path_join (cache_dir_path_of file_path) "index.faiss") eqn:E.
    + rewrite embed_file_hit in Hrun by (by rewrite E).
      unfold mbind, M_bind, bind, load_faiss_index in Hrun. revert Hrun. run.
      unfold faiss_read_index, open_rb, read_file. run.
      destruct (files w !! _) as [ibytes|]; simpl; [|done].
      destruct (faiss_deserialize ibytes) as [i|e]; simpl; [|done].
      destruct (files w !! _) as [data|]; simpl; [|done].
      destruct (pickle_loads data) as [[idmap rest1]|e]; simpl; [|done].
      destruct (pickle_loads rest1) as [[ds rest2]|e]; simpl; [|done].
      by intros [= <- <-].
    + rewrite (embed_file_miss _ _ E) in Hrun. simpl in Hrun.
      destruct (load_and_split _ _ _) as [docs|e]; [|done].
      destruct (from_documents _ _ _) as [[[[i idmap] ds]|e] fs']; [|done].
      by injection Hrun as <- <-.
  - intros docs e Hin.
    destruct (files w !! os_path_join (cache_dir_path_of file_path) "index.faiss") eqn:E.
    + assert (Hex : is_Some (files w !!
        os_path_join (cache_dir_path_of file_path) "index.faiss")) by (by rewrite E).
      pose proof (embed_file_hit _ _ Hex) as Hhit.
      assert (Hw : (embed_file file_path w).2 = w).
      { rewrite Hhit. unfold mbind, M_bind, bind.
        pose proof (load_faiss_index_world (cache_dir_path_of file_path)
          (redhat_embeddings (cache_dir_path_of file_path)) w) as Hl.
        by destruct (load_faiss_index _ _ w) as [[vs|e'] w'']. }
      rewrite (trace_of_app _ _ []) in Hin by (by rewrite Hw, app_nil_r).
      by apply elem_of_nil in Hin.
    + destruct (embed_file_miss_events _ _ E) as (rest & Hev & _ & Hdocs).
      rewrite (trace_of_app _ _ _ Hev) in Hin.
      apply elem_of_cons in Hin as [Heq|Hin]; [discriminate|].
      by destruct (Hdocs _ _ Hin) as [_ ->].
Qed.

End Cache.

Section Loading.
Context `{Libraries}.

(** X1 -- failures of [load_faiss_index].  Loading never changes the world.
    It raises a [RuntimeError] when the index file is missing and whatever
    faiss raises when the file does not deserialize; with a good index file
    it raises a [FileNotFoundError] when the side tables file is missing, and
    whatever pickle raises when the first or the second record of that file
    does not load. *)
Theorem load_faiss_index_failures (dir_path : string) (provider : Embeddings) (w : World) :
  let faiss_file := os_path_join dir_path "index.faiss" in
  let pkl_file := os_path_join dir_path "index.pkl" in
  let loaded := load_faiss_index dir_path provider w in
  loaded.2 = w ∧
  (files w !! faiss_file = None →
     ∃ msg, loaded.1 = Raise (Exception "RuntimeError" msg)) ∧
  (∀ ibytes e, files w !! faiss_file = Some ibytes → faiss_deserialize ibytes = Raise e →
     loaded.1 = Raise e) ∧
  (∀ ibytes i, files w !! faiss_file = Some ibytes → faiss_deserialize ibytes = Ok i →
     (files w !! pkl_file = None →
        ∃ msg, loaded.1 = Raise (Exception "FileNotFoundError" msg)) ∧
     (∀ data e, files w !! pkl_file = Some data → pickle_loads data = Raise e →
        loaded.1 = Raise e) ∧
     (∀ data idmap rest e, files w !! pkl_file = Some data →
        pickle_loads data = Ok (idmap, rest) → pickle_loads rest = Raise e →
        loaded.1 = Raise e)).
Proof.
  intros faiss_file pkl_file loaded.
  split; [apply load_faiss_index_world|].
  subst loaded faiss_file pkl_file.
  unfold load_faiss_index, faiss_read_index, open_rb, read_file. run.
  split; [|split].
  - intros ->. simpl. eauto.
  - intros ibytes e -> ->. done.
  - intros ibytes i -> ->. simpl. split; [|split].
    + intros ->. simpl. eauto.
    + intros data e -> ->. done.
    + intros data idmap rest e -> ->. simpl. by intros ->.
Qed.

(** X2 -- no fallback to a rebuild.  When [index.faiss] exists in the cache
    directory and loading fails, [embed_file] raises the exception of the
    load, asks nothing of the world (the source document is not split again)
    and leaves the world as it was. *)
Theorem embed_file_no_rebuild_on_load_failure (file_path : string) (w : World) (e : PyExc) :
  let cache_dir_path := cache_dir_path_of file_path in
  is_Some (files w !! os_path_join cache_dir_path "index.faiss") →
  (load_faiss_index cache_dir_path (redhat_embeddings cache_dir_path) w).1 = Raise e →
  embed_file file_path w = (Raise e, w) ∧
  trace_of (embed_file file_path) w = [].
Proof.
  intros cache_dir_path Hex Hfail.
  assert (Hrun : embed_file file_path w = (Raise e, w)).
  { rewrite (embed_file_hit _ _ Hex). fold cache_dir_path.
    unfold mbind, M_bind, bind.
    pose proof (load_faiss_index_world cache_dir_path (redhat_embeddings cache_dir_path) w)
      as Hw.
    destruct (load_faiss_index _ _ w) as [[vs|e'] w']; simpl in *; [done|].
    by injection Hfail as ->; subst. }
  split; [done|]. apply trace_of_app. by rewrite Hrun, app_nil_r.
Qed.

End Loading.

Section Reuse.
Context `{Libraries}.

(** [embed_file] never assigns the global retriever. *)
Lemma embed_file_retriever (file_path : string) (w : World) :
  retriever (embed_file file_path w).2 = retriever w.
Proof.
  destruct (files w !! os_path_join (cache_dir_path_of file_path) "index.faiss") eqn:E.
  - assert (Hex : is_Some (files w !!
      os_path_join (cache_dir_path_of file_path) "index.faiss")) by (by rewrite E).
    rewrite (embed_file_hit _ _ Hex). unfold mbind, M_bind, bind.
    pose proof (load_faiss_index_world (cache_dir_path_of file_path)
      (redhat_embeddings (cache_dir_path_of file_path)) w) as Hw.
    destruct (load_faiss_index _ _ w) as [[vs|e] w']; simpl in *; by subst.
  - rewrite (embed_file_miss _ _ E). simpl.
    destruct (load_and_split _ _ _) as [docs|e]; [|done].
    by destruct (from_documents _ _ _) as [[[[i idmap] ds]|e] fs'].
Qed.

(** X3 -- saving replaces.  Saving a store into a directory that already
    holds a saved store leaves exactly what saving into the directory
    without the earlier save would have left: the side tables file is
    truncated, not appended to. *)
Theorem save_faiss_index_overwrites (vs1 vs2 : FAISS) (dir_path : string) (w : World) :
  save_faiss_index vs2 dir_path (save_faiss_index vs1 dir_path w).2 =
    save_faiss_index vs2 dir_path w.
Proof.
  rewrite !save_faiss_index_run. simpl. do 2 f_equal.
  pose proof (index_paths_distinct dir_path) as Hne.
  apply map_eq. intros path.
  destruct (decide (path = os_path_join dir_path "index.pkl")) as [->|Hp];
    [by rewrite !lookup_insert_eq|].
  rewrite !(lookup_insert_ne _ (os_path_join dir_path "index.pkl")) by done.
  destruct (decide (path = os_path_join dir_path "index.faiss")) as [->|Hf];
    [by rewrite !lookup_insert_eq|].
  by rewrite !lookup_insert_ne.
Qed.

(** X4 -- a successful [embed_file] leaves the cache filled.  Whenever
    [embed_file] returns a retriever, on either path, both [index.faiss] and
    [index.pkl] exist in the cache directory afterwards.  When on a cache
    miss the loader or splitter raises, [embed_file] raises the same
    exception, the files are untouched and the index is still missing. *)
Theorem embed_file_fills_cache (file_path : string) (w : World) :
  let cache_dir_path := cache_dir_path_of file_path in
  (∀ r w', embed_file file_path w = (Ok r, w') →
     is_Some (files w' !! os_path_join cache_dir_path "index.faiss") ∧
     is_Some (files w' !! os_path_join cache_dir_path "index.pkl")) ∧
  (∀ e, files w !! os_path_join cache_dir_path "index.faiss" = None →
     load_and_split (files w) file_path redhat_text_splitter = Raise e →
     (embed_file file_path w).1 = Raise e ∧
     files (embed_file file_path w).2 = files w ∧
     files (embed_file file_path w).2 !! os_path_join cache_dir_path "index.faiss" = None).
Proof.
  intros cache_dir_path. split.
  - intros r w' Hrun.
    destruct (files w !! os_path_join cache_dir_path "index.faiss") as [ibytes|] eqn:E.
    + assert (Hex : is_Some (files w !! os_path_join cache_dir_path "index.faiss"))
        by (by rewrite E).
      rewrite (embed_file_hit _ _ Hex) in Hrun. fold cache_dir_path in Hrun.
      revert Hrun. unfold load_faiss_index, faiss_read_index, open_rb, read_file. run.
      rewrite E. simpl.
      destruct (faiss_deserialize ibytes) as [i|e]; simpl; [|done].
      destruct (files w !! os_path_join cache_dir_path "index.pkl") as [data|] eqn:Ep;
        simpl; [|done].
      destruct (pickle_loads data) as [[idmap rest1]|e]; simpl; [|done].
      destruct (pickle_loads rest1) as [[ds rest2]|e]; simpl; [|done].
      intros [= <- <-]. by rewrite E, Ep.
    + rewrite (embed_file_miss _ _ E) in Hrun. simpl in Hrun.
      destruct (load_and_split _ _ _) as [docs|e]; [|done].
      destruct (from_documents _ _ _) as [[[[i idmap] ds]|e] fs']; [|done].
      injection Hrun as <- <-. simpl. fold cache_dir_path.
      pose proof (index_paths_distinct cache_dir_path) as Hne.
      split; [by rewrite lookup_insert_ne, lookup_insert_eq|by rewrite lookup_insert_eq].
  - intros e Hno Hsplit. rewrite (embed_file_miss _ _ Hno). simpl. by rewrite Hsplit.
Qed.

(** X5 -- the cache is keyed by the base name of the source file.  Let faiss
    and pickle read back what they wrote.  After [embed_file] has returned a
    retriever for one path, [embed_file] for any path with the same base name
    (the same path included) succeeds as a cache hit: it asks nothing of the
    world -- the second document is never loaded or split --, leaves the
    world as it is, and its retriever answers every query as the first
    one does. *)
Theorem embed_file_reuses_cache (p1 p2 : string) (w w1 : World) (r : VectorStoreRetriever) :
  (∀ i, faiss_deserialize (faiss_serialize i) = Ok i) →
  (∀ o rest, pickle_loads (pickle_dumps o ++ rest) = Ok (o, rest)) →
  os_path_basename p1 = os_path_basename p2 →
  embed_file p1 w = (Ok r, w1) →
  ∃ r',
    embed_file p2 w1 = (Ok r', w1) ∧
    trace_of (embed_file p2) w1 = [] ∧
    ∀ text, invoke (Some r') text = invoke (Some r) text.
Proof.
  intros Hfaiss Hpickle Hbase Hrun.
  assert (Hdir : cache_dir_path_of p2 = cache_dir_path_of p1).
  { unfold cache_dir_path_of. by rewrite Hbase. }
  set (dir := cache_dir_path_of p1) in *.
  pose proof (index_paths_distinct dir) as Hne.
  assert (Hgoal : ∃ r', embed_file p2 w1 = (Ok r', w1) ∧
    ∀ text, invoke (Some r') text = invoke (Some r) text).
  { destruct (files w !! os_path_join dir "index.faiss") as [ibytes|] eqn:E.
    - assert (Hex : is_Some (files w !! os_path_join dir "index.faiss")) by (by rewrite E).
      pose proof (embed_file_hit p1 w Hex) as Hhit. fold dir in Hhit.
      assert (Hw : w1 = w).
      { pose proof (load_faiss_index_world dir (redhat_embeddings dir) w) as Hl.
        rewrite Hhit in Hrun. unfold mbind, M_bind, bind in Hrun.
        destruct (load_faiss_index _ _ w) as [[vs|e] w']; simpl in *; subst; [|done].
        by injection Hrun as _ ->. }
      subst w1. exists r. split; [|done].
      rewrite <- Hrun, Hhit. rewrite embed_file_hit by (by rewrite Hdir). by rewrite Hdir.
    - rewrite (embed_file_miss _ _ E) in Hrun. simpl in Hrun. fold dir in Hrun.
      destruct (load_and_split _ _ _) as [docs|e]; [|done].
      destruct (from_documents _ _ _) as [[[[i idmap] ds]|e] fs']; [|done].
      injection Hrun as <- <-.
      eexists. split.
      + rewrite embed_file_hit; rewrite Hdir; simpl;
          [|by rewrite lookup_insert_ne, lookup_insert_eq].
        unfold mbind, M_bind, bind.
        erewrite load_faiss_index_run; simpl; [done| | | | |].
        * by rewrite lookup_insert_ne, lookup_insert_eq.
        * apply Hfaiss.
        * by rewrite lookup_insert_eq.
        * apply Hpickle.
        * apply Hpickle.
      + done. }
  destruct Hgoal as (r' & Hrun' & Hsame). exists r'.
  split; [done|]. split; [|done].
  apply trace_of_app. by rewrite Hrun', app_nil_r.
Qed.

End Reuse.

Section Serving.
Context `{Libraries}.

(** X6 -- outcomes of the inference client.  [query_ollama] raises nothing
    but [HTTPException]s, and it returns an answer exactly when the service
    responds with a status in 200..299 whose body decodes to a value that has
    a ["response"] entry; the answer is that entry. *)
Theorem query_ollama_outcomes (inputs : string) (w : World) :
  let outcome :=
    http_post (events w) OLLAMA_URL (mkPayload "EEVE-Korean-10.8B:latest" inputs false)
      [("Content-Type", "application/json")] timeout in
  (∀ e, (query_ollama inputs w).1 = Raise e → ∃ s d, e = HTTPException s d) ∧
  (∀ answer,
     (query_ollama inputs w).1 = Ok answer ↔
     ∃ response j,
       outcome = Ok response ∧ 200 ≤ status_code response ≤ 299 ∧
       response_json response = Ok j ∧ json_getitem j "response" = Ok answer).
Proof.
  intros outcome. rewrite query_ollama_run. simpl.
  unfold ollama_exchange. fold outcome. split.
  - intros e.
    destruct (_ ≫= _) as [answer|e0]; [done|].
    destruct e0; intros [= <-]; eauto.
  - intros answer. split.
    + destruct outcome as [response|e0] eqn:Hout; simpl; [|by destruct e0].
      unfold raise_for_status, is_success.
      destruct (200 <=? status_code response) eqn:Hlo; simpl; [|done].
      destruct (status_code response <=? 299) eqn:Hhi; simpl; [|done].
      destruct (response_json response) as [j|e0] eqn:Hj; simpl; [|by destruct e0].
      destruct (json_getitem j "response") as [a|e0] eqn:Hk; simpl; [|by destruct e0].
      intros [= <-]. exists response, j.
      apply Z.leb_le in Hlo. apply Z.leb_le in Hhi. done.
    + intros (response & j & -> & [Hlo Hhi] & Hj & Hk). simpl.
      unfold raise_for_status, is_success.
      apply Z.leb_le in Hlo. apply Z.leb_le in Hhi. rewrite Hlo, Hhi. simpl.
      rewrite Hj. simpl. by rewrite Hk.
Qed.

(** What a query leaves behind: files and global retriever as they were,
    and at most one request. *)
Lemma process_query_world (inputs : string) (w : World) :
  let w' := (process_query inputs w).2 in
  files w' = files w ∧ retriever w' = retriever w ∧
  ((∃ e, invoke (retriever w) inputs = Raise e ∧ events w' = events w) ∨
   (∃ prompt, events w' = events w ++ [ollama_request prompt])).
Proof.
  rewrite process_query_run.
  destruct (invoke (retriever w) inputs) as [docs|e]; simpl.
  - rewrite query_ollama_run. simpl. split; [done|]. split; [done|]. right. eauto.
  - split; [done|]. split; [done|]. left. eauto.
Qed.

(** X7 -- outcomes of the endpoint.  [query_doc] raises nothing but
    [HTTPException]s.  It returns a response exactly when retrieval, the
    inference client and the rendering of the answer all succeed, and the
    body is the rendered answer.  It never changes the files or the global
    retriever, and it sends at most one request: none when retrieval fails. *)
Theorem query_doc_outcomes (query : QueryModel) (w : World) :
  let after := (query_doc query w).2 in
  (∀ e, (query_doc query w).1 = Raise e → ∃ s d, e = HTTPException s d) ∧
  (∀ reply,
     (query_doc query w).1 = Ok reply ↔
     ∃ answer, (process_query (inputs query) w).1 = Ok answer ∧
       json_render answer = Ok (body reply)) ∧
  files after = files w ∧ retriever after = retriever w ∧
  ((∃ e, invoke (retriever w) (inputs query) = Raise e) →
     trace_of (query_doc query) w = []) ∧
  (trace_of (query_doc query) w = [] ∨
   ∃ prompt, trace_of (query_doc query) w = [ollama_request prompt]).
Proof.
  intros after. subst after. rewrite query_doc_run. simpl.
  destruct (process_query_world (inputs query) w) as (Hf & Hr & Hev).
  assert (Htrace : ∀ new, events (process_query (inputs query) w).2 = events w ++ new →
    trace_of (query_doc query) w = new).
  { intros new Hnew. apply trace_of_app. by rewrite query_doc_run. }
  split; [|split; [|split; [done|split; [done|split]]]].
  - intros e.
    destruct ((process_query (inputs query) w).1) as [answer|e0].
    + destruct (json_render answer) as [rendered|e0]; [done|].
      destruct e0; intros [= <-]; eauto.
    + destruct e0; intros [= <-]; eauto.
  - intros reply. split.
    + destruct ((process_query (inputs query) w).1) as [answer|e0]; [|by destruct e0].
      destruct (json_render answer) as [rendered|e0] eqn:Hren; [|by destruct e0].
      intros [= <-]. exists answer. by rewrite Hren.
    + intros (answer & -> & Hren). rewrite Hren. by destruct reply.
  - intros [e He]. apply Htrace.
    destruct Hev as [(e' & _ & Hev)|(prompt & Hev)].
    + by rewrite Hev, app_nil_r.
    + rewrite process_query_run, He in Hev. simpl in Hev.
      apply (f_equal length) in Hev. rewrite length_app in Hev. simpl in Hev. lia.
  - destruct Hev as [(e' & _ & Hev)|(prompt & Hev)].
    + left. apply Htrace. by rewrite Hev, app_nil_r.
    + right. exists prompt. by apply Htrace.
Qed.

Lemma on_startup_run (w : World) :
  on_startup w =
    match
      embed_file
        "/home/osslab/red_hat_enterprise_linux-7-system_administrators_guide-ko-kr.pdf" w
    with
    | (Ok r, w') => (Ok (), mkWorld (files w') (events w') (Some r))
    | (Raise e, w') => (Raise e, w')
    end.
Proof.
  unfold on_startup, load_and_embed_pdfs, for_each. run.
  by destruct (embed_file _ w) as [[r|e] w'].
Qed.

(** X8 -- startup.  [on_startup] embeds the one configured document and
    nothing else.  If [embed_file] returns a retriever, startup succeeds and
    binds the global retriever to it; if [embed_file] raises, startup raises
    the same exception and the global retriever stays what it was. *)
Theorem on_startup_outcome (w : World) :
  let pdf :=
    "/home/osslab/red_hat_enterprise_linux-7-system_administrators_guide-ko-kr.pdf" in
  (∀ r w', embed_file pdf w = (Ok r, w') →
     on_startup w = (Ok (), mkWorld (files w') (events w') (Some r))) ∧
  (∀ e w', embed_file pdf w = (Raise e, w') →
     on_startup w = (Raise e, w') ∧ retriever w' = retriever w) ∧
  trace_of on_startup w = trace_of (embed_file pdf) w ∧
  files (on_startup w).2 = files (embed_file pdf w).2.
Proof.
  intros pdf. rewrite on_startup_run. fold pdf.
  split; [|split; [|split]].
  - by intros r w' ->.
  - intros e w' Hrun. pose proof (embed_file_retriever pdf w) as Hr.
    rewrite Hrun in *. done.
  - unfold trace_of. rewrite on_startup_run. fold pdf.
    by destruct (embed_file pdf w) as [[r|e] w'].
  - by destruct (embed_file pdf w) as [[r|e] w'].
Qed.

(** X9 -- startup, then queries.  After a successful startup the global
    retriever is the one [embed_file] returned for the configured document;
    a query retrieves from its store -- a failure of the search is what
    [process_query] raises, and the chunks found are what the prompt is
    built from --, and the retriever is still bound after the query. *)
Theorem startup_then_query (w w1 : World) :
  on_startup w = (Ok (), w1) →
  ∃ r,
    (embed_file
       "/home/osslab/red_hat_enterprise_linux-7-system_administrators_guide-ko-kr.pdf" w).1
      = Ok r ∧
    retriever w1 = Some r ∧
    ∀ query,
      retriever (query_doc query w1).2 = Some r ∧
      (∀ e, similarity_search (vectorstore r) (inputs query) = Raise e →
         process_query (inputs query) w1 = (Raise e, w1)) ∧
      (∀ context_docs,
         similarity_search (vectorstore r) (inputs query) = Ok context_docs →
         trace_of (query_doc query) w1 =
           [ollama_request
              (RAG_PROMPT_PREAMBLE +:+ LF +:+
               spec_prompt (inputs query)
                 (str_join (LF +:+ LF) (page_content <$> context_docs)))]).
Proof.
  rewrite on_startup_run.
  destruct (embed_file _ w) as [[r|e] w'] eqn:Hrun; [|done].
  intros [= <-]. exists r. split; [done|]. split; [done|].
  intros query. split; [|split].
  - rewrite query_doc_run. simpl.
    by destruct (process_query_world (inputs query)
      (mkWorld (files w') (events w') (Some r))) as (_ & -> & _).
  - intros e He. rewrite process_query_run. simpl. by rewrite He.
  - intros docs Hd. apply trace_of_app. rewrite query_doc_run. simpl.
    rewrite process_query_run. simpl. rewrite Hd. by rewrite query_ollama_run.
Qed.

End Serving.

Section CacheNames.
Context `{Libraries}.

Lemma append_nil_r (s : string) : s +:+ "" = s.
Proof.
  induction s as [|c s IH]; [done|]. change (String c (s +:+ "") = String c s).
  by rewrite IH.
Qed.

Lemma contains_slash_app (a b : string) :
  contains_slash (a +:+ b) = contains_slash a || contains_slash b.
Proof.
  induction a as [|c a IH]; [done|].
  change (Ascii.eqb c "/" || contains_slash (a +:+ b) =
          Ascii.eqb c "/" || contains_slash a || contains_slash b).
  rewrite IH. by destruct (Ascii.eqb c "/").
Qed.

Lemma ends_with_slash_app (a b : string) :
  b ≠ "" → ends_with_slash (a +:+ b) = ends_with_slash b.
Proof.
  intros Hb. induction a as [|c a IH]; [done|].
  change (ends_with_slash (String c (a +:+ b)) = ends_with_slash b).
  destruct (a +:+ b) as [|c' rest] eqn:E.
  - destruct a; [by subst|discriminate].
  - simpl. by rewrite <- IH.
Qed.

Lemma ends_with_slash_contains (s : string) :
  ends_with_slash s = true → contains_slash s = true.
Proof.
  induction s as [|c s IH]; [done|]. simpl.
  destruct s as [|c' s']; [intros ->; done|].
  intros Hs. rewrite (IH Hs). by destruct (Ascii.eqb c "/").
Qed.

Lemma basename_from_no_slash (acc s : string) :
  contains_slash acc = false → contains_slash (basename_from acc s) = false.
Proof.
  revert acc. induction s as [|c s IH]; intros acc Hacc; simpl; [done|].
  destruct (Ascii.eqb c "/") eqn:Hc; [by apply IH|].
  apply IH. rewrite contains_slash_app, Hacc. simpl. by rewrite Hc.
Qed.

Lemma basename_from_suffix (acc s : string) :
  ∃ d, acc +:+ s = d +:+ basename_from acc s ∧ (d = "" ∨ ends_with_slash d = true).
Proof.
  revert acc. induction s as [|c s IH]; intros acc; simpl.
  - exists "". rewrite append_nil_r. eauto.
  - destruct (Ascii.eqb c "/") eqn:Hc.
    + apply Ascii.eqb_eq in Hc as ->.
      destruct (IH "") as (d & Hd & Hend). exists (acc +:+ "/" +:+ d). split.
      * rewrite !append_assoc. do 2 f_equal. exact Hd.
      * right. destruct Hend as [->|Hend].
        -- rewrite append_nil_r. by rewrite ends_with_slash_app.
        -- rewrite <- append_assoc. rewrite ends_with_slash_app; [done|].
           by intros ->.
    + destruct (IH (acc +:+ String c "")) as (d & Hd & Hend). exists d.
      split; [|done]. rewrite <- Hd. by rewrite append_assoc.
Qed.

Lemma basename_from_fixed (acc s : string) :
  contains_slash s = false → basename_from acc s = acc +:+ s.
Proof.
  revert acc. induction s as [|c s IH]; intros acc Hs; simpl.
  - by rewrite append_nil_r.
  - simpl in Hs. apply orb_false_iff in Hs as [Hc Hs]. rewrite Hc.
    rewrite (IH _ Hs). by rewrite append_assoc.
Qed.

(** Where the two cache files of a base name are. *)
Lemma cache_file_path (b name : string) :
  contains_slash b = false → (name = "index.faiss" ∨ name = "index.pkl") →
  os_path_join ("./.cache/embeddings/redhat/" +:+ b) name =
    "./.cache/embeddings/redhat/" +:+
      (if String.eqb b "" then name else b +:+ "/" +:+ name).
Proof.
  intros Hb Hname.
  assert (Hjoin : os_path_join ("./.cache/embeddings/redhat/" +:+ b) name =
    if ends_with_slash ("./.cache/embeddings/redhat/" +:+ b)
    then ("./.cache/embeddings/redhat/" +:+ b) +:+ name
    else ("./.cache/embeddings/redhat/" +:+ b) +:+ "/" +:+ name).
  { by destruct Hname as [->| ->]. }
  rewrite Hjoin. destruct b as [|c b].
  - by destruct Hname as [->| ->].
  - rewrite ends_with_slash_app by done.
    destruct (ends_with_slash (String c b)) eqn:E.
    + apply ends_with_slash_contains in E. congruence.
    + by rewrite append_assoc.
Qed.

(** X10 -- shape of the cache directory.  The base name that names the
    cache directory is what follows the last slash of the path: it has no
    slash, the path is a directory part (empty or ending in a slash) followed
    by it, and a path that is only a base name has the same cache directory.
    [index.faiss] and [index.pkl] are kept in
    [./.cache/embeddings/redhat/<base name>/]; for a path that ends in a slash
    the base name is empty and they are kept in
    [./.cache/embeddings/redhat/] itself. *)
Theorem cache_dir_path_shape (file_path : string) :
  let b := os_path_basename file_path in
  contains_slash b = false ∧
  (∃ d, file_path = d +:+ b ∧ (d = "" ∨ ends_with_slash d = true)) ∧
  cache_dir_path_of b = cache_dir_path_of file_path ∧
  (∀ name, name = "index.faiss" ∨ name = "index.pkl" →
     os_path_join (cache_dir_path_of file_path) name =
       "./.cache/embeddings/redhat/" +:+
         (if String.eqb b "" then name else b +:+ "/" +:+ name)) ∧
  (ends_with_slash file_path = true → b = "").
Proof.
  intros b. subst b. unfold cache_dir_path_of, os_path_basename.
  pose proof (basename_from_no_slash "" file_path eq_refl) as Hno.
  split; [done|]. split; [apply (basename_from_suffix "" file_path)|].
  split; [by rewrite (basename_from_fixed "" _ Hno)|].
  split; [intros name Hname; by apply cache_file_path|].
  intros Hend. destruct (basename_from_suffix "" file_path) as (d & Hd & _).
  destruct (basename_from "" file_path) as [|c b] eqn:E; [done|].
  change ("" +:+ file_path) with file_path in Hd.
  rewrite Hd in Hend. rewrite ends_with_slash_app in Hend by done.
  apply ends_with_slash_contains in Hend. congruence.
Qed.



End CacheNames.

(** ** Runs on the stub *)

#[local] Existing Instance stub_libraries.

Lemma save_load_round_trip_witness :
  provider_of (@embedding_function stub_libraries stub_store) = stub_provider ∧
  ∃ w1 vs',
    save_faiss_index stub_store "cache" stub_fresh = (Ok (), w1) ∧
    load_faiss_index "cache" stub_provider w1 = (Ok vs', w1) ∧
    (∀ text, similarity_search vs' text = similarity_search stub_store text) ∧
    (∀ text,
       invoke (Some (as_retriever vs')) text = invoke (Some (as_retriever stub_store)) text).
Proof.
  split; [reflexivity|].
  apply (@save_load_round_trip stub_libraries stub_store "cache" stub_provider stub_fresh).
  - intros i. reflexivity.
  - intros o rest. reflexivity.
  - reflexivity.
Defined.


Lemma process_query_prompt_witness :
  invoke (retriever stub_started) "q" = Ok [mkDocument "q" []; mkDocument "ctx" []] ∧
  trace_of (process_query "q") stub_started =
    [ollama_request
       (RAG_PROMPT_PREAMBLE +:+ LF +:+ spec_prompt "q" ("q" +:+ LF +:+ LF +:+ "ctx"))] ∧
  posted_prompts (trace_of (process_query "q") stub_started) =
    [RAG_PROMPT_PREAMBLE +:+ LF +:+ spec_prompt "q" ("q" +:+ LF +:+ LF +:+ "ctx")].
Proof.
  split; [reflexivity|].
  apply (@process_query_prompt stub_libraries "q" stub_started
           [mkDocument "q" []; mkDocument "ctx" []]).
  reflexivity.
Defined.

(** C5, as stated, fails: the prompt that is sent starts with the
    instruction line of the template, so it is not the bare
    Question / Context / Answer text. *)
Lemma process_query_prompt_not_bare_template :
  ¬ (∀ (L : Libraries) (inputs : string) (w : World) (context_docs : list Document),
       invoke (retriever w) inputs = Ok context_docs →
       posted_prompts (trace_of (process_query inputs) w) =
         [spec_prompt inputs (str_join (LF +:+ LF) (page_content <$> context_docs))]).
Proof.
  intros Hclaim.
  specialize (Hclaim stub_libraries "q" stub_started
                [mkDocument "q" []; mkDocument "ctx" []] eq_refl).
  vm_compute in Hclaim. discriminate.
Qed.

Lemma embed_file_byte_store_witness :
  let r := as_retriever
    (mkFAISS [x01] x03 x02
       (EmbeddingsObject (redhat_embeddings "./.cache/embeddings/redhat/guide-ko-kr.pdf"))) in
  (embed_file stub_pdf stub_fresh).1 = Ok r ∧
  byte_store (provider_of (embedding_function (vectorstore r))) =
    Some (mkLocalFileStore "./.cache/embeddings/redhat/guide-ko-kr.pdf") ∧
  under "./.cache/files/redhat" "./.cache/embeddings/redhat/guide-ko-kr.pdf" = false.
Proof.
  intros r. split; [vm_compute; reflexivity|].
  split; [|reflexivity].
  apply (@embed_file_byte_store stub_libraries stub_pdf stub_fresh
           (embed_file stub_pdf stub_fresh).2 r).
  vm_compute. reflexivity.
Defined.

(** C8, as stated, fails: the byte store of the provider that [embed_file]
    builds is not in or below [files/redhat] of the cache root, however the
    cache root is spelled. *)
Lemma embed_file_byte_store_not_under_files :
  ¬ (∀ (L : Libraries) (file_path : string) (w w' : World) (r : VectorStoreRetriever),
       embed_file file_path w = (Ok r, w') →
       ∃ store,
         byte_store (provider_of (embedding_function (vectorstore r))) = Some store ∧
         (under "./.cache/files/redhat" (root_path store) = true ∨
          under ".cache/files/redhat" (root_path store) = true)).
Proof.
  intros Hclaim.
  destruct (Hclaim stub_libraries stub_pdf stub_fresh (embed_file stub_pdf stub_fresh).2
              (@as_retriever stub_libraries
                 (@mkFAISS stub_libraries [x01] x03 x02
                    (EmbeddingsObject
                       (redhat_embeddings "./.cache/embeddings/redhat/guide-ko-kr.pdf")))))
    as (store & Hstore & Hunder).
  - vm_compute. reflexivity.
  - vm_compute in Hstore. injection Hstore as <-.
    vm_compute in Hunder. by destruct Hunder.
Qed.


(** The scenario of the specification: the inference service answers 503
    with body "overloaded", and the endpoint raises status 503 with detail
    "overloaded". *)
Example query_doc_overloaded :
  (query_doc (mkQueryModel "q") stub_started).1 = Raise (HTTPException 503 "overloaded").
Proof. vm_compute. reflexivity. Qed.

(** The chunks the stub indexes on a cache miss, and the cache hit that
    follows on the files this leaves behind. *)
Example embed_file_then_hit :
  let w1 := (embed_file stub_pdf stub_fresh).2 in
  indexed_chunks (events w1) =
    [[mkDocument "chunk one" [("source", stub_pdf)];
      mkDocument "chunk two" [("source", stub_pdf)]]] ∧
  trace_of (embed_file stub_pdf) w1 = [] ∧
  (embed_file stub_pdf w1).1 =
    Ok (as_retriever
          (mkFAISS [x01] x03 x02
             (EmbedQueryMethod
                (redhat_embeddings "./.cache/embeddings/redhat/guide-ko-kr.pdf")))).
Proof. vm_compute. done. Qed.

Lemma embed_file_no_rebuild_on_load_failure_witness :
  let missing :=
    Exception "FileNotFoundError"
      "[Errno 2] No such file or directory: './.cache/embeddings/redhat/guide-ko-kr.pdf/index.pkl'" in
  embed_file stub_pdf stub_index_only = (Raise missing, stub_index_only) ∧
  trace_of (embed_file stub_pdf) stub_index_only = [].
Proof.
  intros missing.
  apply (@embed_file_no_rebuild_on_load_failure stub_libraries stub_pdf stub_index_only
           missing).
  - vm_compute. eauto.
  - vm_compute. reflexivity.
Defined.

Lemma embed_file_reuses_cache_witness :
  os_path_basename stub_pdf = os_path_basename "/mnt/other/guide-ko-kr.pdf" ∧
  ∃ r',
    embed_file "/mnt/other/guide-ko-kr.pdf" (embed_file stub_pdf stub_fresh).2 =
      (Ok r', (embed_file stub_pdf stub_fresh).2) ∧
    trace_of (embed_file "/mnt/other/guide-ko-kr.pdf") (embed_file stub_pdf stub_fresh).2 = [] ∧
    ∀ text,
      invoke (Some r') text =
      invoke
        (Some (as_retriever
           (mkFAISS [x01] x03 x02
              (EmbeddingsObject
                 (redhat_embeddings "./.cache/embeddings/redhat/guide-ko-kr.pdf"))))) text.
Proof.
  split; [reflexivity|].
  apply (@embed_file_reuses_cache stub_libraries stub_pdf "/mnt/other/guide-ko-kr.pdf"
           stub_fresh).
  - intros i. reflexivity.
  - intros o rest. reflexivity.
  - reflexivity.
  - vm_compute. reflexivity.
Defined.

Lemma startup_then_query_witness :
  ∃ r,
    (embed_file
       "/home/osslab/red_hat_enterprise_linux-7-system_administrators_guide-ko-kr.pdf"
       stub_fresh).1 = Ok r ∧
    retriever (on_startup stub_fresh).2 = Some r ∧
    ∀ query,
      retriever (query_doc query (on_startup stub_fresh).2).2 = Some r ∧
      (∀ e, similarity_search (vectorstore r) (inputs query) = Raise e →
         process_query (inputs query) (on_startup stub_fresh).2 =
           (Raise e, (on_startup stub_fresh).2)) ∧
      (∀ context_docs,
         similarity_search (vectorstore r) (inputs query) = Ok context_docs →
         trace_of (query_doc query) (on_startup stub_fresh).2 =
           [ollama_request
              (RAG_PROMPT_PREAMBLE +:+ LF +:+
               spec_prompt (inputs query)
                 (str_join (LF +:+ LF) (page_content <$> context_docs)))]).
Proof.
  apply (@startup_then_query stub_libraries stub_fresh (on_startup stub_fresh).2).
  vm_compute. reflexivity.
Defined.

